(** * PyPI/visualizations/graphviz_output.py: pruning and dot-file writer

    A shallow embedding of [create_graphviz]: the two pruning passes over the
    package list, the slice [packages[:n]], and the sequence of [f.write]
    calls that make up the dot file.  Python integers are unbounded, so ids
    are modelled as [Z]; the [set] of ids is a [gset Z], the [dict]
    [has_dependency] is a [gmap Z (list Z)].  Logging and the progress bar
    only observe the data and are left out. *)

From Stdlib Require Import ZArith Lia Ascii String.
From stdpp Require Import base decidable option list gmap sets strings pretty.

Local Open Scope Z_scope.

(** ** Rows handed over by the database cursor *)

(** A row of [SELECT id, name FROM packages]. *)
Record Package := mkPackage { id : Z; name : string }.

(** A row of [SELECT package, needs_package, times FROM dependencies]:
    [package] requires [needs_package], observed [times] times. *)
Record Dependency := mkDependency { package : Z; needs_package : Z; times : Z }.

Global Instance Package_eq_dec : EqDecision Package.
Proof. solve_decision. Defined.

Global Instance Dependency_eq_dec : EqDecision Dependency.
Proof. solve_decision. Defined.

(** ** Python primitives used by the function *)

Module Py.

(** [l[:n]]: [None] keeps everything, a non-negative stop keeps at most
    that many leading elements, a negative stop counts from the end. *)
Definition slice_to {A} (l : list A) (n : option Z) : list A :=
  match n with
  | None => l
  | Some k =>
      if decide (k < 0)
      then take (Z.to_nat (Z.max 0 (Z.of_nat (length l) + k))) l
      else take (Z.to_nat k) l
  end.

(** [str(i)] as used by an f-string on an [int]. *)
Definition str (i : Z) : string := pretty i.

(** The line feed and the double quote, by character code. *)
Definition LF : string := String "010"%char EmptyString.
Definition DQUOTE : string := String "034"%char EmptyString.

(** A file handle opened for writing, as the record of the arguments of
    its [f.write(s)] calls, oldest first; a fresh handle has none. *)
Abbreviation file := (list string).
Definition open_w : file := [].
Definition write (f : file) (s : string) : file := f ++ [s].

(** The text these calls put in the file, one after the other. *)
Definition contents (f : file) : string := foldr String.append EmptyString f.

(** The file system, from paths to texts.  [open(filename, w)] creates the
    file or truncates it; a write appends to the text of the open file. *)
Definition fs_open_w (filename : string) (fs : gmap string string)
    : gmap string string :=
  <[ filename := EmptyString ]> fs.

Definition fs_write (filename : string) (fs : gmap string string) (s : string)
    : gmap string string :=
  match fs !! filename with
  | Some text => <[ filename := text +:+ s ]> fs
  | None => fs
  end.

End Py.

(** ** create_graphviz, lines 84-97: packages without any edge *)

(** One turn of [for dep in dependencies] filling [save_nodes]. *)
Definition add_endpoints (save_nodes : gset Z) (dep : Dependency) : gset Z :=
  {[ package dep ]} ∪ ({[ needs_package dep ]} ∪ save_nodes).

(** One turn of a [for pkg in packages] loop that appends to [new_pkgs]
    the packages passing [test]. *)
Definition keep_if (test : Package → bool)
    (new_pkgs : list Package) (pkg : Package) : list Package :=
  if test pkg then new_pkgs ++ [pkg] else new_pkgs.

Definition remove_no_edge_pass
    (packages : list Package) (dependencies : list Dependency) : list Package :=
  let save_nodes := fold_left add_endpoints dependencies ∅ in
  fold_left (keep_if (λ pkg, bool_decide (id pkg ∈ save_nodes))) packages [].

(** ** create_graphviz, lines 99-114: packages that only import themselves *)

(** One turn of [for dep in dependencies] filling [has_dependency]; a
    self-dependency hits [continue]. *)
Definition record_dependency
    (has_dependency : gmap Z (list Z)) (dep : Dependency) : gmap Z (list Z) :=
  if decide (package dep = needs_package dep) then has_dependency
  else match has_dependency !! package dep with
       | Some l => <[ package dep := l ++ [needs_package dep] ]> has_dependency
       | None => <[ package dep := [needs_package dep] ]> has_dependency
       end.

(** [pkg[id] in has_dependency and len(has_dependency[pkg[id]]) >= 1] *)
Definition has_entry (has_dependency : gmap Z (list Z)) (pkg : Package) : bool :=
  match has_dependency !! id pkg with
  | Some l => bool_decide (1 ≤ length l)%nat
  | None => false
  end.

Definition remove_only_selfimport_pass
    (packages : list Package) (dependencies : list Dependency) : list Package :=
  let has_dependency := fold_left record_dependency dependencies ∅ in
  fold_left (keep_if (has_entry has_dependency)) packages [].

(** The package list as it stands at line 115, after both [if] blocks. *)
Definition prune (packages : list Package) (dependencies : list Dependency)
    (remove_no_edge remove_only_selfimport : bool) : list Package :=
  let packages :=
    if remove_no_edge || remove_only_selfimport
    then remove_no_edge_pass packages dependencies
    else packages in
  let packages :=
    if remove_only_selfimport
    then remove_only_selfimport_pass packages dependencies
    else packages in
  packages.

(** ** create_graphviz, lines 118-135: the writes *)

Definition header : string :=
  "digraph python_package_dependencies {" +:+ Py.LF.

Definition footer : string := "}".

(** The text of a node statement and of an edge statement. *)
Definition node_stmt (i : Z) (label : string) : string :=
  Py.str i +:+ " [shape=point, label=" +:+ Py.DQUOTE +:+ label
    +:+ Py.DQUOTE +:+ "];" +:+ Py.LF.

Definition edge_stmt (a b : Z) : string :=
  Py.str a +:+ " -> " +:+ Py.str b +:+ ";" +:+ Py.LF.

(** The f-string of line 127. *)
Definition node_line (pkg : Package) : string := node_stmt (id pkg) (name pkg).

(** The f-string of line 134: [needs_package] is formatted first. *)
Definition edge_line (dep : Dependency) : string :=
  edge_stmt (needs_package dep) (package dep).

(** One turn of the loop of lines 125-128. *)
Definition write_node (st : Py.file * list Z) (pkg : Package) : Py.file * list Z :=
  (Py.write st.1 (node_line pkg), st.2 ++ [id pkg]).

(** The test of line 133. *)
Definition both_in (pkg_ids : gset Z) (dep : Dependency) : bool :=
  bool_decide (needs_package dep ∈ pkg_ids) && bool_decide (package dep ∈ pkg_ids).

(** One turn of the loop of lines 132-134. *)
Definition write_edge (pkg_ids : gset Z) (f : Py.file) (dep : Dependency) : Py.file :=
  if both_in pkg_ids dep then Py.write f (edge_line dep) else f.

(** The body of the [with open(filename, w) as f] block: [packages] is the
    list after line 116, and the node loop slices it once more. *)
Definition write_graph (packages : list Package) (dependencies : list Dependency)
    (n : option Z) : Py.file :=
  let f := Py.write Py.open_w header in
  let st := fold_left write_node (Py.slice_to packages n) (f, []) in
  let f := st.1 in
  let pkg_ids : gset Z := list_to_set st.2 in
  let f := fold_left (write_edge pkg_ids) dependencies f in
  Py.write f footer.

(** The calls to [f.write] made by one run, in order. *)
Definition writes (packages : list Package) (dependencies : list Dependency)
    (n : option Z) (remove_no_edge remove_only_selfimport : bool) : Py.file :=
  let packages := prune packages dependencies remove_no_edge remove_only_selfimport in
  let packages := Py.slice_to packages n in
  write_graph packages dependencies n.

(** The whole function as a transformer of the file system: [filename] is
    opened with mode [w] and receives the writes of the run in order. *)
Definition create_graphviz (fs : gmap string string) (filename : string)
    (packages : list Package) (dependencies : list Dependency)
    (n : option Z) (remove_no_edge remove_only_selfimport : bool)
    : gmap string string :=
  fold_left (Py.fs_write filename)
    (writes packages dependencies n remove_no_edge remove_only_selfimport)
    (Py.fs_open_w filename fs).

(** The packages the node loop iterates over, hence the emitted nodes. *)
Definition emitted_packages (packages : list Package) (dependencies : list Dependency)
    (n : option Z) (remove_no_edge remove_only_selfimport : bool) : list Package :=
  Py.slice_to
    (Py.slice_to (prune packages dependencies remove_no_edge remove_only_selfimport) n) n.

(** ** Reading a written line back

    A line of the dot file starts with the characters of an integer when it
    is a node or an edge statement; what follows tells the two apart. *)

Module Line.

Definition is_id_char (c : ascii) : bool :=
  existsb (Ascii.eqb c) (list_ascii_of_string "-0123456789").

Fixpoint all_id_chars (s : string) : bool :=
  match s with
  | EmptyString => true
  | String c s' => is_id_char c && all_id_chars s'
  end.

Fixpoint skip_id (s : string) : string :=
  match s with
  | EmptyString => s
  | String c s' => if is_id_char c then skip_id s' else s
  end.

Definition is_node_line (s : string) : bool := String.prefix " [" (skip_id s).
Definition is_edge_line (s : string) : bool := String.prefix " ->" (skip_id s).

(** The node lines and the edge lines of a file, in the order written. *)
Definition node_lines (f : Py.file) : list string :=
  filter (λ line, is_node_line line = true) f.
Definition edge_lines (f : Py.file) : list string :=
  filter (λ line, is_edge_line line = true) f.

End Line.

(** ** Vocabulary of the properties *)

(** The ids collected by the node loop, as the set of line 130. *)
Definition emitted_ids (packages : list Package) (dependencies : list Dependency)
    (n : option Z) (remove_no_edge remove_only_selfimport : bool) : gset Z :=
  list_to_set (id <$> emitted_packages packages dependencies n
                        remove_no_edge remove_only_selfimport).

(** Both endpoints of [dep] are among [pkg_ids]. *)
Definition survives (pkg_ids : gset Z) (dep : Dependency) : Prop :=
  needs_package dep ∈ pkg_ids ∧ package dep ∈ pkg_ids.

(** Some dependency has [i] as one of its endpoints. *)
Definition has_edge (dependencies : list Dependency) (i : Z) : Prop :=
  Exists (λ dep, package dep = i ∨ needs_package dep = i) dependencies.

(** Some dependency of [i] needs a package other than [i]. *)
Definition imports_other (dependencies : list Dependency) (i : Z) : Prop :=
  Exists (λ dep, package dep = i ∧ needs_package dep ≠ i) dependencies.

Global Instance survives_dec pkg_ids dep : Decision (survives pkg_ids dep).
Proof. unfold survives. apply _. Defined.

Global Instance has_edge_dec dependencies i : Decision (has_edge dependencies i).
Proof. unfold has_edge. apply _. Defined.

Global Instance imports_other_dec dependencies i :
  Decision (imports_other dependencies i).
Proof. unfold imports_other. apply _. Defined.

(** The two endpoints of a dependency, without its weight. *)
Definition endpoints (dep : Dependency) : Z * Z := (package dep, needs_package dep).

(** A dependency with its weight erased. *)
Definition forget_weight (dep : Dependency) : Dependency :=
  mkDependency (package dep) (needs_package dep) 0.

(** The count the specification gives for the node lines: the length of
    the pruned list, capped by [n] when [n] is set. *)
Definition capped (len : nat) (n : option Z) : Z :=
  match n with
  | None => Z.of_nat len
  | Some k => Z.min (Z.of_nat len) k
  end.

(** The number of node lines in the file equals that count. *)
Definition node_count_as_specified (packages : list Package)
    (dependencies : list Dependency) (n : option Z)
    (remove_no_edge remove_only_selfimport : bool) : Prop :=
  Z.of_nat (length (Line.node_lines
     (writes packages dependencies n remove_no_edge remove_only_selfimport)))
  = capped (length (prune packages dependencies remove_no_edge remove_only_selfimport)) n.

(** ** The filter as the specification words it (section 4.1)

    The two pruning modes, each a filter of the package sequence that
    consults the full dependency list, applied one after the other and each
    only when its own flag is set. *)

Module Spec.

(** The set of ids that appear as source or target of any dependency. *)
Definition connected_ids (dependencies : list Dependency) : gset Z :=
  list_to_set ((package <$> dependencies) ++ (needs_package <$> dependencies)).

(** Retain only packages whose id is in that set. *)
Definition connectivity_pruning
    (packages : list Package) (dependencies : list Dependency) : list Package :=
  filter (λ pkg, id pkg ∈ connected_ids dependencies) packages.

(** The mapping from a package id to the list of other ids it depends on,
    ignoring dependencies whose source and target are equal. *)
Definition depends_on (dependencies : list Dependency) (i : Z) : list Z :=
  needs_package <$>
    filter (λ dep, package dep = i ∧ package dep ≠ needs_package dep) dependencies.

(** Retain only packages whose id has at least one entry in the mapping. *)
Definition self_import_only_pruning
    (packages : list Package) (dependencies : list Dependency) : list Package :=
  filter (λ pkg, (1 ≤ length (depends_on dependencies (id pkg)))%nat) packages.

Definition graph_filter (packages : list Package) (dependencies : list Dependency)
    (removeDisconnected removeSelfImportOnly : bool) : list Package :=
  let packages :=
    if removeDisconnected then connectivity_pruning packages dependencies
    else packages in
  let packages :=
    if removeSelfImportOnly then self_import_only_pruning packages dependencies
    else packages in
  packages.

End Spec.

(** ** dict_factory, lines 22-26

    The row factory: [cursor.description] holds one tuple per column whose
    first item is the column name, [row] one value per column.  A column
    descriptor is a pair of its name and its remaining items. *)

Section DictFactory.

Context {V R : Type}.

(** [enumerate(l)] *)
Definition enumerate {A} (l : list A) : list (nat * A) :=
  zip (seq 0 (length l)) l.

(** One turn of the loop, [d[col[0]] = row[idx]]: the index is looked up
    first, and an index past the end of [row] raises [IndexError], here
    [None], which ends the loop. *)
Definition set_column (row : list V) (d : option (gmap string V))
    (idx_col : nat * (string * R)) : option (gmap string V) :=
  d ← d; v ← row !! idx_col.1; Some (<[ idx_col.2.1 := v ]> d).

Definition dict_factory (description : list (string * R)) (row : list V)
    : option (gmap string V) :=
  fold_left (set_column row) (enumerate description) (Some ∅).

End DictFactory.

(** ** The running example of the specification *)

Definition ex_packages : list Package :=
  [mkPackage 1 "a"; mkPackage 2 "b"; mkPackage 3 "c"].
Definition ex_dependencies : list Dependency :=
  [mkDependency 1 2 5; mkDependency 3 3 1].

(** * Properties *)

(** Let [simpl] compute an append whose first argument starts with a
    constructor, as it does for lists. *)
Local Arguments String.append !_ _ / : simpl nomatch.

(** ** Integers print as digits with an optional sign *)

Section Printing.

Import Line.

Lemma pretty_N_char_id x : is_id_char (pretty_N_char x) = true.
Proof. unfold pretty_N_char. repeat case_match; reflexivity. Qed.

Lemma pretty_N_go_id x s :
  all_id_chars s = true → all_id_chars (pretty_N_go x s) = true.
Proof.
  revert s. induction (N.lt_wf_0 x) as [x _ IH]; intros s Hs.
  destruct (decide (x = 0)%N) as [->|Hx].
  - by rewrite pretty_N_go_0.
  - rewrite pretty_N_go_step by lia. apply IH.
    + apply N.div_lt; lia.
    + simpl. by rewrite pretty_N_char_id, Hs.
Qed.

Lemma pretty_N_id (x : N) : all_id_chars (pretty x) = true.
Proof.
  unfold pretty, pretty_N. case_decide; [reflexivity|].
  by apply pretty_N_go_id.
Qed.

Lemma str_id (i : Z) : all_id_chars (Py.str i) = true.
Proof.
  unfold Py.str, pretty, pretty_Z. destruct i as [|p|p]; [reflexivity|..].
  - apply pretty_N_id.
  - simpl. apply pretty_N_id.
Qed.

Lemma skip_id_app s c r :
  all_id_chars s = true → is_id_char c = false →
  skip_id (s +:+ String c r) = String c r.
Proof.
  intros Hs Hc. induction s as [|a s IH]; simpl in *.
  - by rewrite Hc.
  - apply andb_true_iff in Hs as [-> Hs]. by apply IH.
Qed.

Lemma id_prefix_unique s1 s2 c r1 r2 :
  all_id_chars s1 = true → all_id_chars s2 = true → is_id_char c = false →
  s1 +:+ String c r1 = s2 +:+ String c r2 → s1 = s2 ∧ r1 = r2.
Proof.
  intros H1 H2 Hc. revert s2 H2.
  induction s1 as [|a s1 IH]; intros [|b s2] H2 Heq; simpl in *.
  - by injection Heq.
  - injection Heq as -> _. apply andb_true_iff in H2 as [H2 _]. congruence.
  - injection Heq as -> _. apply andb_true_iff in H1 as [H1 _]. congruence.
  - injection Heq as -> Heq.
    apply andb_true_iff in H1 as [_ H1]. apply andb_true_iff in H2 as [_ H2].
    destruct (IH H1 s2 H2 Heq) as [-> ->]. done.
Qed.

End Printing.

(** ** The file system after a run *)

Section Files.

Lemma append_assoc (s t u : string) : (s +:+ t) +:+ u = s +:+ t +:+ u.
Proof. induction s as [|a s IH]; simpl; [done|by rewrite IH]. Qed.

Lemma fs_write_all (filename : string) (fs : gmap string string)
    (text : string) (f : Py.file) :
  fold_left (Py.fs_write filename) f (<[ filename := text ]> fs)
  = <[ filename := text +:+ Py.contents f ]> fs.
Proof.
  revert text. induction f as [|s f IH]; intros text; simpl.
  - f_equal. induction text as [|a text IHt]; simpl; [done|by rewrite <- IHt].
  - unfold Py.fs_write at 2. rewrite lookup_insert_eq, insert_insert_eq.
    by rewrite IH, append_assoc.
Qed.

(** Whatever [filename] held before the run is replaced by the text of
    the writes. *)
Lemma create_graphviz_eq fs filename packages dependencies n
    remove_no_edge remove_only_selfimport :
  create_graphviz fs filename packages dependencies n
    remove_no_edge remove_only_selfimport
  = <[ filename := Py.contents
         (writes packages dependencies n remove_no_edge remove_only_selfimport) ]> fs.
Proof. unfold create_graphviz, Py.fs_open_w. by rewrite fs_write_all. Qed.

End Files.

(** ** Telling the written lines apart *)

Section Lines.

Import Line.

Lemma length_append (s t : string) :
  String.length (s +:+ t) = (String.length s + String.length t)%nat.
Proof. induction s as [|a s IH]; simpl; [done|by rewrite IH]. Qed.

Lemma append_inv_tail (s1 s2 t : string) : s1 +:+ t = s2 +:+ t → s1 = s2.
Proof.
  revert s2. induction s1 as [|a s1 IH]; intros [|b s2] Heq; simpl in *.
  - done.
  - apply (f_equal String.length) in Heq. simpl in Heq.
    rewrite (length_append s2 t) in Heq. lia.
  - apply (f_equal String.length) in Heq. simpl in Heq.
    rewrite (length_append s1 t) in Heq. lia.
  - injection Heq as -> Heq. by rewrite (IH _ Heq).
Qed.

Lemma is_node_line_node i label : is_node_line (node_stmt i label) = true.
Proof.
  unfold is_node_line, node_stmt. simpl.
  rewrite skip_id_app by (apply str_id || reflexivity). reflexivity.
Qed.

Lemma is_edge_line_node i label : is_edge_line (node_stmt i label) = false.
Proof.
  unfold is_edge_line, node_stmt. simpl.
  rewrite skip_id_app by (apply str_id || reflexivity). reflexivity.
Qed.

Lemma is_edge_line_edge a b : is_edge_line (edge_stmt a b) = true.
Proof.
  unfold is_edge_line, edge_stmt. simpl.
  rewrite skip_id_app by (apply str_id || reflexivity). reflexivity.
Qed.

Lemma is_node_line_edge a b : is_node_line (edge_stmt a b) = false.
Proof.
  unfold is_node_line, edge_stmt. simpl.
  rewrite skip_id_app by (apply str_id || reflexivity). reflexivity.
Qed.

Lemma edge_stmt_inj a b a' b' : edge_stmt a b = edge_stmt a' b' → a = a' ∧ b = b'.
Proof.
  unfold edge_stmt. simpl. intros Heq.
  apply id_prefix_unique in Heq as [Ha Heq]; [|apply str_id..|reflexivity].
  injection Heq as Heq.
  apply id_prefix_unique in Heq as [Hb _]; [|apply str_id..|reflexivity].
  split; by apply (inj pretty).
Qed.

Lemma node_stmt_inj i l i' l' : node_stmt i l = node_stmt i' l' → i = i' ∧ l = l'.
Proof.
  unfold node_stmt. simpl. intros Heq.
  apply id_prefix_unique in Heq as [Hi Heq]; [|apply str_id..|reflexivity].
  split; [by apply (inj pretty)|].
  injection Heq as Heq. by apply append_inv_tail in Heq.
Qed.

End Lines.

(** ** The loops as maps and filters *)

Section Loops.

Lemma fold_keep_if (test : Package → bool) (l acc : list Package) :
  fold_left (keep_if test) l acc = acc ++ filter (λ pkg, test pkg = true) l.
Proof.
  revert acc. induction l as [|pkg l IH]; intros acc; simpl.
  - by rewrite app_nil_r.
  - rewrite IH, filter_cons. unfold keep_if.
    destruct (test pkg); case_decide; try done.
    by rewrite <- app_assoc.
Qed.

Lemma save_nodes_spec (dependencies : list Dependency) (save_nodes : gset Z) (i : Z) :
  i ∈ fold_left add_endpoints dependencies save_nodes
  ↔ i ∈ save_nodes ∨ has_edge dependencies i.
Proof.
  unfold has_edge. revert save_nodes.
  induction dependencies as [|dep l IH]; intros save_nodes; simpl.
  - rewrite Exists_nil. tauto.
  - rewrite IH, Exists_cons. unfold add_endpoints.
    rewrite !elem_of_union, !elem_of_singleton. intuition congruence.
Qed.

Lemma has_entry_record (m : gmap Z (list Z)) (dep : Dependency) (pkg : Package) :
  has_entry (record_dependency m dep) pkg = true
  ↔ has_entry m pkg = true ∨ (package dep = id pkg ∧ needs_package dep ≠ id pkg).
Proof.
  unfold record_dependency, has_entry.
  destruct (decide (package dep = needs_package dep)) as [Hself|Hself].
  - split; [tauto|]. intros [?|[? ?]]; [done|congruence].
  - destruct (decide (package dep = id pkg)) as [Hi|Hi].
    + rewrite <- Hi.
      destruct (m !! package dep) as [l|] eqn:Hm; rewrite lookup_insert_eq.
      * rewrite !bool_decide_eq_true, length_app. simpl.
        split; [intros _|lia]. right. split; congruence.
      * split; [intros _|done]. right. split; congruence.
    + destruct (m !! package dep) as [l|] eqn:Hm;
        rewrite lookup_insert_ne by done; tauto.
Qed.

Lemma has_dependency_spec (dependencies : list Dependency) (m : gmap Z (list Z))
    (pkg : Package) :
  has_entry (fold_left record_dependency dependencies m) pkg = true
  ↔ has_entry m pkg = true ∨ imports_other dependencies (id pkg).
Proof.
  unfold imports_other. revert m.
  induction dependencies as [|dep l IH]; intros m; simpl.
  - rewrite Exists_nil. tauto.
  - rewrite IH, has_entry_record, Exists_cons. tauto.
Qed.

Lemma fold_write_node (l : list Package) (st : Py.file * list Z) :
  fold_left write_node l st = (st.1 ++ (node_line <$> l), st.2 ++ (id <$> l)).
Proof.
  revert st. induction l as [|pkg l IH]; intros [f ids]; simpl.
  - by rewrite !app_nil_r.
  - rewrite IH. unfold write_node, Py.write. simpl.
    by rewrite <- !app_assoc.
Qed.

Lemma both_in_survives (pkg_ids : gset Z) (dep : Dependency) :
  both_in pkg_ids dep = true ↔ survives pkg_ids dep.
Proof.
  unfold both_in, survives.
  by rewrite andb_true_iff, !bool_decide_eq_true.
Qed.

Lemma fold_write_edge (pkg_ids : gset Z) (l : list Dependency) (f : Py.file) :
  fold_left (write_edge pkg_ids) l f
  = f ++ (edge_line <$> filter (survives pkg_ids) l).
Proof.
  revert f. induction l as [|dep l IH]; intros f; simpl.
  - by rewrite app_nil_r.
  - rewrite IH, filter_cons. unfold write_edge, Py.write.
    pose proof (both_in_survives pkg_ids dep) as Hb.
    destruct (both_in pkg_ids dep); case_decide.
    + simpl. by rewrite <- app_assoc.
    + exfalso. tauto.
    + exfalso. by assert (false = true) by tauto.
    + done.
Qed.

(** The file, write by write: the header, one node line for each package
    of the twice-sliced list, one edge line for each dependency with both
    endpoints among their ids, the closing brace. *)
Lemma writes_eq packages dependencies n remove_no_edge remove_only_selfimport :
  writes packages dependencies n remove_no_edge remove_only_selfimport
  = [header]
    ++ (node_line <$> emitted_packages packages dependencies n
                        remove_no_edge remove_only_selfimport)
    ++ (edge_line <$> filter
          (survives (emitted_ids packages dependencies n
                       remove_no_edge remove_only_selfimport)) dependencies)
    ++ [footer].
Proof.
  unfold writes, write_graph, emitted_ids, emitted_packages.
  rewrite fold_write_node. simpl. rewrite fold_write_edge.
  unfold Py.write, Py.open_w. simpl. by rewrite <- !app_assoc.
Qed.

End Loops.

(** ** What is in the file *)

Section Membership.

Import Line.

Context (packages : list Package) (dependencies : list Dependency)
  (n : option Z) (remove_no_edge remove_only_selfimport : bool).

Local Abbreviation W := (writes packages dependencies n remove_no_edge remove_only_selfimport).
Local Abbreviation E :=
  (emitted_packages packages dependencies n remove_no_edge remove_only_selfimport).
Local Abbreviation IDS :=
  (emitted_ids packages dependencies n remove_no_edge remove_only_selfimport).

Lemma emitted_ids_spec (i : Z) : i ∈ IDS ↔ ∃ pkg, pkg ∈ E ∧ id pkg = i.
Proof.
  unfold emitted_ids. rewrite elem_of_list_to_set, list_elem_of_fmap.
  split; intros (pkg & ? & ?); exists pkg; split; done.
Qed.

Lemma edge_in_writes (a b : Z) :
  edge_stmt a b ∈ W
  ↔ ∃ dep, dep ∈ dependencies ∧ needs_package dep = a ∧ package dep = b
           ∧ a ∈ IDS ∧ b ∈ IDS.
Proof.
  rewrite writes_eq, !elem_of_app, !list_elem_of_singleton, !list_elem_of_fmap.
  split.
  - intros [Hh|[(pkg & Hn & _)|[(dep & He & Hin)|Hf]]].
    + apply (f_equal is_edge_line) in Hh. by rewrite is_edge_line_edge in Hh.
    + apply (f_equal is_edge_line) in Hn.
      unfold node_line in Hn. by rewrite is_edge_line_edge, is_edge_line_node in Hn.
    + apply edge_stmt_inj in He as [-> ->].
      apply list_elem_of_filter in Hin as [[? ?] ?]. by exists dep.
    + apply (f_equal is_edge_line) in Hf. by rewrite is_edge_line_edge in Hf.
  - intros (dep & Hin & <- & <- & Ha & Hb). right. right. left.
    exists dep. split; [done|]. apply list_elem_of_filter. by repeat split.
Qed.

Lemma node_in_writes (i : Z) (label : string) :
  node_stmt i label ∈ W ↔ mkPackage i label ∈ E.
Proof.
  rewrite writes_eq, !elem_of_app, !list_elem_of_singleton, !list_elem_of_fmap.
  split.
  - intros [Hh|[(pkg & Hn & Hin)|[(dep & He & _)|Hf]]].
    + apply (f_equal is_node_line) in Hh. by rewrite is_node_line_node in Hh.
    + apply node_stmt_inj in Hn as [Hi Hl]. destruct pkg; simpl in *. by subst.
    + apply (f_equal is_node_line) in He.
      unfold edge_line in He. by rewrite is_node_line_node, is_node_line_edge in He.
    + apply (f_equal is_node_line) in Hf. by rewrite is_node_line_node in Hf.
  - intros Hin. right. left. by exists (mkPackage i label).
Qed.

Lemma filter_fmap_all {A} (P : string → Prop) `{!∀ x, Decision (P x)}
    (f : A → string) (l : list A) :
  (∀ x, P (f x)) → filter P (f <$> l) = f <$> l.
Proof.
  intros HP. induction l as [|x l IH]; [done|].
  rewrite fmap_cons, filter_cons_True by done. by rewrite IH.
Qed.

Lemma filter_fmap_none {A} (P : string → Prop) `{!∀ x, Decision (P x)}
    (f : A → string) (l : list A) :
  (∀ x, ¬ P (f x)) → filter P (f <$> l) = [].
Proof.
  intros HP. induction l as [|x l IH]; [done|].
  rewrite fmap_cons, filter_cons_False by done. by rewrite IH.
Qed.

Lemma node_lines_writes : node_lines W = node_line <$> E.
Proof.
  unfold node_lines. rewrite writes_eq, !filter_app.
  rewrite (filter_fmap_all _ node_line)
    by (intros pkg; apply is_node_line_node).
  rewrite (filter_fmap_none _ edge_line)
    by (intros dep; unfold edge_line; by rewrite is_node_line_edge).
  rewrite !filter_cons_False by done. simpl. by rewrite app_nil_r.
Qed.

Lemma edge_lines_writes :
  edge_lines W = edge_line <$> filter (survives IDS) dependencies.
Proof.
  unfold edge_lines. rewrite writes_eq, !filter_app.
  rewrite (filter_fmap_none _ node_line)
    by (intros pkg; unfold node_line; by rewrite is_edge_line_node).
  rewrite (filter_fmap_all _ edge_line)
    by (intros dep; apply is_edge_line_edge).
  rewrite !filter_cons_False by done. simpl. by rewrite app_nil_r.
Qed.

End Membership.

(** ** The pruning passes as filters *)

Section Pruning.

Context (packages : list Package) (dependencies : list Dependency).

Lemma has_edge_exists (i : Z) :
  has_edge dependencies i
  ↔ ∃ dep, dep ∈ dependencies ∧ (package dep = i ∨ needs_package dep = i).
Proof. unfold has_edge. rewrite Exists_exists. by setoid_rewrite list_elem_of_In. Qed.

Lemma imports_other_exists (i : Z) :
  imports_other dependencies i
  ↔ ∃ dep, dep ∈ dependencies ∧ package dep = i ∧ needs_package dep ≠ i.
Proof. unfold imports_other. rewrite Exists_exists. by setoid_rewrite list_elem_of_In. Qed.

Lemma imports_other_has_edge (i : Z) :
  imports_other dependencies i → has_edge dependencies i.
Proof.
  unfold imports_other, has_edge. intros H.
  eapply Exists_impl; [exact H|]. intros dep [? _]. by left.
Qed.

Lemma remove_no_edge_pass_eq :
  remove_no_edge_pass packages dependencies
  = filter (λ pkg, has_edge dependencies (id pkg)) packages.
Proof.
  unfold remove_no_edge_pass. rewrite fold_keep_if. simpl.
  apply list_filter_iff. intros pkg.
  rewrite bool_decide_eq_true, save_nodes_spec, elem_of_empty. tauto.
Qed.

Lemma remove_only_selfimport_pass_eq (l : list Package) :
  remove_only_selfimport_pass l dependencies
  = filter (λ pkg, imports_other dependencies (id pkg)) l.
Proof.
  unfold remove_only_selfimport_pass. rewrite fold_keep_if. simpl.
  apply list_filter_iff. intros pkg.
  rewrite has_dependency_spec. unfold has_entry at 1. rewrite lookup_empty.
  split; [by intros [?|?]|tauto].
Qed.

Lemma prune_selfimport (remove_no_edge : bool) :
  prune packages dependencies remove_no_edge true
  = filter (λ pkg, imports_other dependencies (id pkg)) packages.
Proof.
  unfold prune. rewrite orb_true_r.
  rewrite remove_only_selfimport_pass_eq, remove_no_edge_pass_eq.
  rewrite list_filter_filter. apply list_filter_iff. intros pkg.
  split; [tauto|]. intros H. split; [done|]. by apply imports_other_has_edge.
Qed.

Lemma prune_no_edge :
  prune packages dependencies true false
  = filter (λ pkg, has_edge dependencies (id pkg)) packages.
Proof. unfold prune. simpl. apply remove_no_edge_pass_eq. Qed.

Lemma prune_subseteq remove_no_edge remove_only_selfimport (pkg : Package) :
  pkg ∈ prune packages dependencies remove_no_edge remove_only_selfimport →
  pkg ∈ packages.
Proof.
  destruct remove_only_selfimport.
  - rewrite prune_selfimport, list_elem_of_filter. tauto.
  - destruct remove_no_edge; [|done].
    rewrite prune_no_edge, list_elem_of_filter. tauto.
Qed.

End Pruning.

(** ** Slices *)

Section Slices.

Context {A : Type}.

Lemma slice_to_elem_of (l : list A) (n : option Z) (x : A) :
  x ∈ Py.slice_to l n → x ∈ l.
Proof.
  unfold Py.slice_to. destruct n as [k|]; [|done].
  case_decide; rewrite elem_of_take; intros (i & Hi & _);
    by eapply list_elem_of_lookup_2.
Qed.

Lemma slice_to_idemp (l : list A) (n : option Z) :
  (∀ k, n = Some k → 0 ≤ k) →
  Py.slice_to (Py.slice_to l n) n = Py.slice_to l n.
Proof.
  intros Hn. unfold Py.slice_to. destruct n as [k|]; [|done].
  specialize (Hn k eq_refl). case_decide; [lia|]. apply take_idemp.
Qed.

Lemma slice_to_nonneg (l : list A) (k : Z) :
  0 ≤ k → Py.slice_to l (Some k) = take (Z.to_nat k) l.
Proof. intros Hk. unfold Py.slice_to. case_decide; [lia|done]. Qed.

End Slices.

(** ** The examples of section 8 of the specification *)

Section Examples.

(** Connectivity pruning keeps all three packages: 3 has an edge to itself. *)
Example ex_remove_no_edge :
  writes ex_packages ex_dependencies None true false
  = [header; node_stmt 1 "a"; node_stmt 2 "b"; node_stmt 3 "c";
     edge_stmt 2 1; edge_stmt 3 3; footer].
Proof. vm_compute. reflexivity. Qed.

(** With [n = 1] only the first package is a node and no edge is left. *)
Example ex_one_node :
  writes ex_packages ex_dependencies (Some 1) true false
  = [header; node_stmt 1 "a"; footer].
Proof. vm_compute. reflexivity. Qed.

(** A negative [n] is a stop counted from the end, applied twice. *)
Example ex_negative_stop :
  Py.slice_to ex_packages (Some (-1)) = [mkPackage 1 "a"; mkPackage 2 "b"]
  ∧ writes ex_packages ex_dependencies (Some (-1)) false false
    = [header; node_stmt 1 "a"; footer].
Proof. split; vm_compute; reflexivity. Qed.

(** The run replaces the previous text of the file and touches no other. *)
Example ex_file_system :
  create_graphviz {[ "graphviz.dot" := "old"; "pypi.db" := "rows" ]}
    "graphviz.dot" [mkPackage 7 "x"] [] None false false
  = {[ "graphviz.dot" := header +:+ node_stmt 7 "x" +:+ footer;
       "pypi.db" := "rows" ]}.
Proof. apply (bool_decide_unpack _). vm_compute. exact I. Qed.

End Examples.

(** * The claims *)

Section Claims.

Import Line.

Lemma emitted_in_pruned packages dependencies n remove_no_edge remove_only_selfimport pkg :
  pkg ∈ emitted_packages packages dependencies n remove_no_edge remove_only_selfimport →
  pkg ∈ Py.slice_to
          (prune packages dependencies remove_no_edge remove_only_selfimport) n.
Proof. unfold emitted_packages. apply slice_to_elem_of. Qed.

Lemma node_line_in_writes packages dependencies n remove_no_edge remove_only_selfimport pkg :
  node_line pkg ∈ writes packages dependencies n remove_no_edge remove_only_selfimport
  ↔ pkg ∈ emitted_packages packages dependencies n remove_no_edge remove_only_selfimport.
Proof. unfold node_line. rewrite node_in_writes. by destruct pkg. Qed.

Lemma emitted_id_has_node_line packages dependencies n remove_no_edge remove_only_selfimport i :
  i ∈ emitted_ids packages dependencies n remove_no_edge remove_only_selfimport →
  (∃ label, node_stmt i label
      ∈ writes packages dependencies n remove_no_edge remove_only_selfimport)
  ∧ i ∈ id <$> Py.slice_to
         (prune packages dependencies remove_no_edge remove_only_selfimport) n.
Proof.
  rewrite emitted_ids_spec. intros (pkg & Hin & <-). split.
  - exists (name pkg). by apply node_line_in_writes.
  - apply list_elem_of_fmap. exists pkg. split; [done|].
    by apply emitted_in_pruned.
Qed.

(** C1: whenever an edge line [a -> b] is in the file, the same file holds a
    node line for [a] and a node line for [b], and both ids belong to the
    pruned and truncated package list; so an edge with an endpoint outside
    that list is never written. *)
Theorem C1_no_dangling_edge packages dependencies n remove_no_edge remove_only_selfimport
    (a b : Z) :
  edge_stmt a b ∈ writes packages dependencies n remove_no_edge remove_only_selfimport →
  ((∃ label, node_stmt a label
       ∈ writes packages dependencies n remove_no_edge remove_only_selfimport)
   ∧ a ∈ id <$> Py.slice_to
          (prune packages dependencies remove_no_edge remove_only_selfimport) n)
  ∧ ((∃ label, node_stmt b label
       ∈ writes packages dependencies n remove_no_edge remove_only_selfimport)
   ∧ b ∈ id <$> Py.slice_to
          (prune packages dependencies remove_no_edge remove_only_selfimport) n).
Proof.
  rewrite edge_in_writes. intros (dep & _ & _ & _ & Ha & Hb).
  split; by apply emitted_id_has_node_line.
Qed.

Lemma C1_no_dangling_edge_witness :
  ((∃ label, node_stmt 2 label ∈ writes ex_packages ex_dependencies None true false)
   ∧ 2 ∈ id <$> Py.slice_to (prune ex_packages ex_dependencies true false) None)
  ∧ ((∃ label, node_stmt 1 label ∈ writes ex_packages ex_dependencies None true false)
   ∧ 1 ∈ id <$> Py.slice_to (prune ex_packages ex_dependencies true false) None).
Proof.
  apply (C1_no_dangling_edge ex_packages ex_dependencies None true false 2 1).
  apply (bool_decide_unpack _). vm_compute. exact I.
Defined.

(** C2: a dependency whose two endpoints are among the emitted ids is
    written as [needs_package -> package]; the edge lines of the file are,
    in order, exactly these reversed statements; and the forward text
    [package -> needs_package] is in the file only when some dependency
    record has it as its own reversed statement. *)
Theorem C2_edge_reversed packages dependencies n remove_no_edge remove_only_selfimport
    (dep : Dependency) :
  dep ∈ dependencies →
  survives (emitted_ids packages dependencies n remove_no_edge remove_only_selfimport) dep →
  edge_stmt (needs_package dep) (package dep)
    ∈ writes packages dependencies n remove_no_edge remove_only_selfimport
  ∧ edge_lines (writes packages dependencies n remove_no_edge remove_only_selfimport)
    = (λ d, edge_stmt (needs_package d) (package d)) <$>
        filter (survives (emitted_ids packages dependencies n
                            remove_no_edge remove_only_selfimport)) dependencies
  ∧ (edge_stmt (package dep) (needs_package dep)
       ∈ writes packages dependencies n remove_no_edge remove_only_selfimport →
     ∃ dep', dep' ∈ dependencies
             ∧ needs_package dep' = package dep ∧ package dep' = needs_package dep).
Proof.
  intros Hin [Hn Hp]. split; [|split].
  - apply edge_in_writes. by exists dep.
  - apply edge_lines_writes.
  - rewrite edge_in_writes. intros (dep' & ? & ? & ? & _). by exists dep'.
Qed.

Lemma C2_edge_reversed_witness :
  edge_stmt 2 1 ∈ writes ex_packages ex_dependencies None true false
  ∧ edge_lines (writes ex_packages ex_dependencies None true false)
    = (λ d, edge_stmt (needs_package d) (package d)) <$>
        filter (survives (emitted_ids ex_packages ex_dependencies None true false))
          ex_dependencies
  ∧ (edge_stmt 1 2 ∈ writes ex_packages ex_dependencies None true false →
     ∃ dep', dep' ∈ ex_dependencies ∧ needs_package dep' = 1 ∧ package dep' = 2).
Proof.
  apply (C2_edge_reversed ex_packages ex_dependencies None true false
           (mkDependency 1 2 5)).
  - apply (bool_decide_unpack _). vm_compute. exact I.
  - apply (bool_decide_unpack _). vm_compute. exact I.
Defined.

(** C3, as amended: when [n] is [None] or a non-negative integer, the
    number of node lines is the length of the pruned list capped by [n],
    the node loop runs over exactly the first [n] pruned packages (all of
    them for [None]), and the node lines are theirs in that order. *)
Theorem C3_node_count packages dependencies n remove_no_edge remove_only_selfimport :
  match n with Some k => 0 ≤ k | None => True end →
  node_count_as_specified packages dependencies n remove_no_edge remove_only_selfimport
  ∧ emitted_packages packages dependencies n remove_no_edge remove_only_selfimport
    = match n with
      | Some k => take (Z.to_nat k)
                    (prune packages dependencies remove_no_edge remove_only_selfimport)
      | None => prune packages dependencies remove_no_edge remove_only_selfimport
      end
  ∧ node_lines (writes packages dependencies n remove_no_edge remove_only_selfimport)
    = node_line <$>
        emitted_packages packages dependencies n remove_no_edge remove_only_selfimport.
Proof.
  intros Hn.
  assert (emitted_packages packages dependencies n remove_no_edge remove_only_selfimport
    = match n with
      | Some k => take (Z.to_nat k)
                    (prune packages dependencies remove_no_edge remove_only_selfimport)
      | None => prune packages dependencies remove_no_edge remove_only_selfimport
      end) as HE.
  { unfold emitted_packages. rewrite slice_to_idemp.
    - destruct n as [k|]; [by apply slice_to_nonneg|done].
    - intros k ->. exact Hn. }
  split; [|split; [exact HE|apply node_lines_writes]].
  unfold node_count_as_specified. rewrite node_lines_writes, length_fmap, HE.
  unfold capped. destruct n as [k|]; [|done]. rewrite length_take. lia.
Qed.

Lemma C3_node_count_witness :
  node_count_as_specified ex_packages ex_dependencies (Some 2) false false
  ∧ emitted_packages ex_packages ex_dependencies (Some 2) false false
    = take (Z.to_nat 2) (prune ex_packages ex_dependencies false false)
  ∧ node_lines (writes ex_packages ex_dependencies (Some 2) false false)
    = node_line <$> emitted_packages ex_packages ex_dependencies (Some 2) false false.
Proof.
  apply (C3_node_count ex_packages ex_dependencies (Some 2) false false). simpl. lia.
Defined.

(** C3, as stated, fails for a negative [n]: with three packages, no
    pruning and [n = -1] the two slices leave one node line, while the
    specified count is [min 3 (-1) = -1]. *)
Lemma C3_node_count_negative :
  ¬ node_count_as_specified ex_packages ex_dependencies (Some (-1)) false false.
Proof. vm_compute. discriminate. Qed.

(** C4: the pass run for [remove_no_edge] keeps exactly the packages whose
    id is an endpoint of some dependency; with the flag set every pruned
    package and every node line in the file has such a dependency, and a
    package without any is neither kept nor written. *)
Theorem C4_remove_no_edge packages dependencies n remove_only_selfimport :
  remove_no_edge_pass packages dependencies
    = filter (λ pkg, has_edge dependencies (id pkg)) packages
  ∧ (∀ pkg, pkg ∈ prune packages dependencies true remove_only_selfimport →
       ∃ dep, dep ∈ dependencies
              ∧ (package dep = id pkg ∨ needs_package dep = id pkg))
  ∧ (∀ i label,
       node_stmt i label ∈ writes packages dependencies n true remove_only_selfimport →
       ∃ dep, dep ∈ dependencies ∧ (package dep = i ∨ needs_package dep = i))
  ∧ (∀ pkg, ¬ has_edge dependencies (id pkg) →
       (pkg ∉ prune packages dependencies true remove_only_selfimport)
       ∧ (node_line pkg ∉ writes packages dependencies n true remove_only_selfimport)).
Proof.
  assert (∀ pkg, pkg ∈ prune packages dependencies true remove_only_selfimport →
            has_edge dependencies (id pkg)) as Hkept.
  { intros pkg. destruct remove_only_selfimport.
    - rewrite prune_selfimport, list_elem_of_filter.
      intros [? _]. by apply imports_other_has_edge.
    - rewrite prune_no_edge, list_elem_of_filter. tauto. }
  assert (∀ pkg,
            pkg ∈ emitted_packages packages dependencies n true remove_only_selfimport →
            has_edge dependencies (id pkg)) as Hemitted.
  { intros pkg Hin. apply Hkept.
    by eapply slice_to_elem_of, emitted_in_pruned. }
  split; [apply remove_no_edge_pass_eq|]. split; [|split].
  - intros pkg Hin. by apply has_edge_exists, Hkept.
  - intros i label Hin. apply node_in_writes in Hin.
    apply has_edge_exists. exact (Hemitted _ Hin).
  - intros pkg Hno. split.
    + intros Hin. by apply Hno, Hkept.
    + rewrite node_line_in_writes. intros Hin. by apply Hno, Hemitted.
Qed.

Lemma C4_remove_no_edge_witness :
  ∃ dep, dep ∈ ex_dependencies ∧ (package dep = 3 ∨ needs_package dep = 3).
Proof.
  pose proof (C4_remove_no_edge ex_packages ex_dependencies None false)
    as (_ & _ & Hnode & _).
  apply (Hnode 3 "c").
  apply (bool_decide_unpack _). vm_compute. exact I.
Defined.

(** C5: with [remove_only_selfimport] set, the pruned list is exactly the
    packages that have a dependency on a package other than themselves;
    every node line in the file belongs to such a package, and a package
    whose outgoing dependencies are all on itself, or that has none, is
    neither kept nor written, whatever depends on it. *)
Theorem C5_remove_only_selfimport packages dependencies n remove_no_edge :
  (∀ l, remove_only_selfimport_pass l dependencies
        = filter (λ pkg, imports_other dependencies (id pkg)) l)
  ∧ prune packages dependencies remove_no_edge true
    = filter (λ pkg, imports_other dependencies (id pkg)) packages
  ∧ (∀ i label,
       node_stmt i label ∈ writes packages dependencies n remove_no_edge true →
       ∃ dep, dep ∈ dependencies ∧ package dep = i ∧ needs_package dep ≠ i)
  ∧ (∀ pkg, ¬ imports_other dependencies (id pkg) →
       (pkg ∉ prune packages dependencies remove_no_edge true)
       ∧ (node_line pkg ∉ writes packages dependencies n remove_no_edge true)).
Proof.
  assert (∀ pkg,
            pkg ∈ emitted_packages packages dependencies n remove_no_edge true →
            imports_other dependencies (id pkg)) as Hemitted.
  { intros pkg Hin.
    apply emitted_in_pruned, slice_to_elem_of in Hin.
    rewrite prune_selfimport, list_elem_of_filter in Hin. tauto. }
  split; [apply remove_only_selfimport_pass_eq|].
  split; [apply prune_selfimport|]. split.
  - intros i label Hin. apply node_in_writes in Hin.
    apply imports_other_exists. exact (Hemitted _ Hin).
  - intros pkg Hno. split.
    + rewrite prune_selfimport, list_elem_of_filter. tauto.
    + rewrite node_line_in_writes. intros Hin. by apply Hno, Hemitted.
Qed.

Lemma C5_remove_only_selfimport_witness :
  ∃ dep, dep ∈ ex_dependencies ∧ package dep = 1 ∧ needs_package dep ≠ 1.
Proof.
  pose proof (C5_remove_only_selfimport ex_packages ex_dependencies None false)
    as (_ & _ & Hnode & _).
  apply (Hnode 1 "a").
  apply (bool_decide_unpack _). vm_compute. exact I.
Defined.


(** C6: on the example of the specification with both flags set and no
    cap, the only emitted package is 1, the file holds the header, the node
    line of package 1 and the closing brace, and no edge line. *)
Theorem C6_example_both_flags :
  emitted_packages ex_packages ex_dependencies None true true = [mkPackage 1 "a"]
  ∧ emitted_ids ex_packages ex_dependencies None true true = {[ 1 ]}
  ∧ writes ex_packages ex_dependencies None true true
    = [header; node_stmt 1 "a"; footer]
  ∧ edge_lines (writes ex_packages ex_dependencies None true true) = [].
Proof.
  split; [|split; [|split]].
  - vm_compute. reflexivity.
  - apply (bool_decide_unpack _). vm_compute. exact I.
  - vm_compute. reflexivity.
  - vm_compute. reflexivity.
Qed.

Section Refinement.

Context (packages : list Package) (dependencies : list Dependency).

Lemma connected_ids_spec (i : Z) :
  i ∈ Spec.connected_ids dependencies ↔ has_edge dependencies i.
Proof.
  unfold Spec.connected_ids.
  rewrite elem_of_list_to_set, elem_of_app, !list_elem_of_fmap, has_edge_exists.
  split.
  - intros [(dep & -> & ?)|(dep & -> & ?)]; exists dep; tauto.
  - intros (dep & ? & [<-|<-]); [left|right]; by exists dep.
Qed.

Lemma depends_on_spec (i : Z) :
  (1 ≤ length (Spec.depends_on dependencies i))%nat ↔ imports_other dependencies i.
Proof.
  unfold Spec.depends_on, imports_other. rewrite length_fmap.
  induction dependencies as [|dep l IH].
  - rewrite Exists_nil. simpl. lia.
  - rewrite filter_cons, Exists_cons. case_decide as Hd; simpl.
    + split; [intros _|lia]. left. destruct Hd as [Hp Hne]. split; congruence.
    + rewrite IH. split; [tauto|]. intros [[Hp Hne]|?]; [|done].
      exfalso. apply Hd. split; congruence.
Qed.

Lemma connectivity_pruning_eq :
  remove_no_edge_pass packages dependencies
  = Spec.connectivity_pruning packages dependencies.
Proof.
  rewrite remove_no_edge_pass_eq. unfold Spec.connectivity_pruning.
  apply list_filter_iff. intros pkg. by rewrite connected_ids_spec.
Qed.

Lemma self_import_only_pruning_eq (l : list Package) :
  remove_only_selfimport_pass l dependencies
  = Spec.self_import_only_pruning l dependencies.
Proof.
  rewrite remove_only_selfimport_pass_eq. unfold Spec.self_import_only_pruning.
  apply list_filter_iff. intros pkg. by rewrite depends_on_spec.
Qed.

(** In every flag configuration the code prunes to what the filter of the
    specification yields, although it runs the connectivity pass also when
    only [remove_only_selfimport] is set. *)
Lemma prune_refines_spec (remove_no_edge remove_only_selfimport : bool) :
  prune packages dependencies remove_no_edge remove_only_selfimport
  = Spec.graph_filter packages dependencies remove_no_edge remove_only_selfimport.
Proof.
  destruct remove_only_selfimport.
  - rewrite prune_selfimport. unfold Spec.graph_filter.
    rewrite <- self_import_only_pruning_eq, remove_only_selfimport_pass_eq.
    destruct remove_no_edge; [|done].
    rewrite <- connectivity_pruning_eq, remove_no_edge_pass_eq, list_filter_filter.
    apply list_filter_iff. intros pkg. split; [|tauto].
    intros H. split; [done|]. by apply imports_other_has_edge.
  - unfold prune, Spec.graph_filter. rewrite orb_false_r.
    destruct remove_no_edge; [apply connectivity_pruning_eq|done].
Qed.

End Refinement.

(** C7: with [remove_no_edge] unset and [remove_only_selfimport] set, the
    pruned list is the filter of the specification, which here is the
    package list filtered by the self-import rule alone, in its original
    order; and the file is the one written from that list. *)
Theorem C7_modes_independent packages dependencies n :
  prune packages dependencies false true
    = Spec.graph_filter packages dependencies false true
  ∧ Spec.graph_filter packages dependencies false true
    = filter (λ pkg, imports_other dependencies (id pkg)) packages
  ∧ writes packages dependencies n false true
    = write_graph
        (Py.slice_to (Spec.self_import_only_pruning packages dependencies) n)
        dependencies n.
Proof.
  split; [apply prune_refines_spec|]. split.
  - rewrite <- prune_refines_spec. apply prune_selfimport.
  - unfold writes. by rewrite prune_refines_spec.
Qed.

(** C8: what a run leaves in the destination file is a function of the
    packages, the dependencies, [n] and the two flags alone: it does not
    depend on what the file system held before, and a second run with the
    same arguments leaves the file system as the first did. *)
Theorem C8_deterministic (fs1 fs2 : gmap string string) filename
    packages dependencies n remove_no_edge remove_only_selfimport :
  create_graphviz fs1 filename packages dependencies n
      remove_no_edge remove_only_selfimport !! filename
    = create_graphviz fs2 filename packages dependencies n
        remove_no_edge remove_only_selfimport !! filename
  ∧ create_graphviz fs1 filename packages dependencies n
        remove_no_edge remove_only_selfimport !! filename
    = Some (Py.contents
        (writes packages dependencies n remove_no_edge remove_only_selfimport))
  ∧ create_graphviz
      (create_graphviz fs1 filename packages dependencies n
         remove_no_edge remove_only_selfimport)
      filename packages dependencies n remove_no_edge remove_only_selfimport
    = create_graphviz fs1 filename packages dependencies n
        remove_no_edge remove_only_selfimport.
Proof.
  rewrite !create_graphviz_eq, !lookup_insert_eq. split; [done|].
  split; [done|]. apply insert_insert_eq.
Qed.

Section Weights.

Lemma fold_forget_weight {B} (f : B → Dependency → B) :
  (∀ b dep, f b (forget_weight dep) = f b dep) →
  ∀ l b, fold_left f (forget_weight <$> l) b = fold_left f l b.
Proof.
  intros Hf l. induction l as [|dep l IH]; intros b; simpl; [done|].
  by rewrite Hf, IH.
Qed.

Lemma writes_forget_weight packages dependencies n remove_no_edge remove_only_selfimport :
  writes packages (forget_weight <$> dependencies) n remove_no_edge remove_only_selfimport
  = writes packages dependencies n remove_no_edge remove_only_selfimport.
Proof.
  unfold writes, write_graph, prune, remove_no_edge_pass, remove_only_selfimport_pass.
  rewrite (fold_forget_weight add_endpoints) by done.
  rewrite (fold_forget_weight record_dependency) by done.
  by rewrite (fold_forget_weight (write_edge _)) by done.
Qed.

Lemma forget_weight_endpoints (l l' : list Dependency) :
  endpoints <$> l = endpoints <$> l' → forget_weight <$> l = forget_weight <$> l'.
Proof.
  intros Heq.
  assert (∀ k : list Dependency,
    forget_weight <$> k = (λ ab : Z * Z, mkDependency ab.1 ab.2 0) <$> (endpoints <$> k))
    as Hk.
  { intros k. rewrite <- list_fmap_compose. by apply list_fmap_ext. }
  by rewrite !Hk, Heq.
Qed.

End Weights.

(** C9: two dependency lists that agree record by record on both endpoints
    give the same writes and the same file, whatever their weights; and the
    edge lines of a file are, in order and with repetitions, the statements
    of the dependencies with both endpoints emitted. *)
Theorem C9_weight_independent packages dependencies dependencies' n
    remove_no_edge remove_only_selfimport :
  endpoints <$> dependencies = endpoints <$> dependencies' →
  writes packages dependencies n remove_no_edge remove_only_selfimport
    = writes packages dependencies' n remove_no_edge remove_only_selfimport
  ∧ (∀ fs filename,
       create_graphviz fs filename packages dependencies n
         remove_no_edge remove_only_selfimport
       = create_graphviz fs filename packages dependencies' n
           remove_no_edge remove_only_selfimport)
  ∧ edge_lines (writes packages dependencies n remove_no_edge remove_only_selfimport)
    = edge_line <$>
        filter (survives (emitted_ids packages dependencies n
                            remove_no_edge remove_only_selfimport)) dependencies.
Proof.
  intros Heq.
  assert (writes packages dependencies n remove_no_edge remove_only_selfimport
    = writes packages dependencies' n remove_no_edge remove_only_selfimport) as HW.
  { rewrite <- (writes_forget_weight _ dependencies).
    rewrite <- (writes_forget_weight _ dependencies').
    by rewrite (forget_weight_endpoints _ _ Heq). }
  split; [exact HW|]. split; [|apply edge_lines_writes].
  intros fs filename. by rewrite !create_graphviz_eq, HW.
Qed.

Lemma C9_weight_independent_witness :
  writes ex_packages ex_dependencies None true false
    = writes ex_packages [mkDependency 1 2 70; mkDependency 3 3 0] None true false
  ∧ (∀ fs filename,
       create_graphviz fs filename ex_packages ex_dependencies None true false
       = create_graphviz fs filename ex_packages
           [mkDependency 1 2 70; mkDependency 3 3 0] None true false)
  ∧ edge_lines (writes ex_packages ex_dependencies None true false)
    = edge_line <$>
        filter (survives (emitted_ids ex_packages ex_dependencies None true false))
          ex_dependencies.
Proof.
  apply (C9_weight_independent ex_packages ex_dependencies
           [mkDependency 1 2 70; mkDependency 3 3 0] None true false).
  reflexivity.
Defined.

(** C10: with [remove_only_selfimport] set, a dependency of a package on
    itself is still written, as the edge line [id -> id], whenever that
    package is among the emitted ones. *)
Theorem C10_self_dependency_emitted packages dependencies n remove_no_edge
    (dep : Dependency) :
  dep ∈ dependencies →
  package dep = needs_package dep →
  package dep ∈ emitted_ids packages dependencies n remove_no_edge true →
  edge_stmt (package dep) (package dep)
    ∈ writes packages dependencies n remove_no_edge true.
Proof.
  intros Hin Hself Hid. apply edge_in_writes.
  exists dep. rewrite <- Hself. by repeat split.
Qed.

Lemma C10_self_dependency_emitted_witness :
  edge_stmt 1 1
    ∈ writes [mkPackage 1 "a"; mkPackage 2 "b"]
        [mkDependency 1 2 1; mkDependency 1 1 1] None false true.
Proof.
  apply (C10_self_dependency_emitted [mkPackage 1 "a"; mkPackage 2 "b"]
           [mkDependency 1 2 1; mkDependency 1 1 1] None false (mkDependency 1 1 1)).
  - apply (bool_decide_unpack _). vm_compute. exact I.
  - reflexivity.
  - apply (bool_decide_unpack _). vm_compute. exact I.
Defined.

End Claims.

(** * Further properties *)

(** ** dict_factory *)

Section DictFactoryFacts.

Context {V R : Type}.

Implicit Types (row : list V) (description : list (string * R))
  (d : gmap string V) (pairs : list (string * V)).

(** Storing the pairs of a list one after the other. *)
Local Abbreviation store :=
  (fold_left (λ (m : gmap string V) (p : string * V), <[ p.1 := p.2 ]> m)).

Lemma set_column_raised row (l : list (nat * (string * R))) :
  fold_left (set_column row) l None = None.
Proof. induction l as [|ic l IH]; simpl; done. Qed.

Lemma dict_factory_from row description (k : nat) d :
  (k ≤ length row)%nat →
  fold_left (set_column row) (zip (seq k (length description)) description) (Some d)
  = if decide (k + length description ≤ length row)%nat
    then Some (store (zip description.*1 (drop k row)) d)
    else None.
Proof.
  revert k d. induction description as [|col l IH]; intros k d Hk; simpl.
  - case_decide; [done|lia].
  - destruct (row !! k) as [v|] eqn:Hv; simpl.
    + apply lookup_lt_Some in Hv as Hlt.
      rewrite IH by lia. rewrite (drop_S _ _ _ Hv). simpl.
      repeat case_decide; try lia; done.
    + apply lookup_ge_None in Hv. rewrite set_column_raised.
      case_decide; [lia|done].
Qed.

(** The dictionary in closed form. *)
Lemma dict_factory_eq description row :
  dict_factory description row
  = if decide (length description ≤ length row)%nat
    then Some (store (zip description.*1 row) ∅)
    else None.
Proof.
  unfold dict_factory, enumerate. rewrite dict_factory_from by lia.
  rewrite drop_0. simpl. done.
Qed.

Lemma store_lookup_other pairs d (c : string) :
  c ∉ pairs.*1 → store pairs d !! c = d !! c.
Proof.
  revert d. induction pairs as [|[c' v'] pairs IH]; intros d Hc; simpl; [done|].
  rewrite fmap_cons, not_elem_of_cons in Hc. destruct Hc as [Hne Hc].
  rewrite IH by done. simpl. by rewrite lookup_insert_ne.
Qed.

Lemma store_lookup_last pairs d (i : nat) (c : string) (v : V) :
  pairs !! i = Some (c, v) →
  (∀ j p, (i < j)%nat → pairs !! j = Some p → p.1 ≠ c) →
  store pairs d !! c = Some v.
Proof.
  revert d i. induction pairs as [|p pairs IH]; intros d i Hi Hlast; [done|].
  destruct i as [|i]; simpl in *.
  - injection Hi as ->. rewrite store_lookup_other; simpl.
    + by rewrite lookup_insert_eq.
    + intros Hin. apply list_elem_of_fmap in Hin as (q & Hq & Hin).
      apply list_elem_of_lookup in Hin as (j & Hj).
      by apply (Hlast (S j) q); [lia|done|].
  - apply (IH _ i); [done|]. intros j q Hlt Hj.
    apply (Hlast (S j) q); [lia|done].
Qed.

Lemma store_dom pairs d :
  dom (store pairs d) = list_to_set pairs.*1 ∪ dom d.
Proof.
  revert d. induction pairs as [|p pairs IH]; intros d.
  - simpl. by rewrite union_empty_l_L.
  - cbn [fold_left]. rewrite IH, dom_insert_L, fmap_cons, list_to_set_cons.
    by rewrite (union_comm_L {[ p.1 ]} (list_to_set pairs.*1)), (assoc_L (∪)).
Qed.

Lemma size_list_to_set_le (l : list string) :
  (size (list_to_set l : gset string) ≤ length l)%nat
  ∧ (size (list_to_set l : gset string) = length l → NoDup l).
Proof.
  induction l as [|x l [IHle IHeq]].
  - rewrite list_to_set_nil, size_empty. split; [done|]. intros _. constructor.
  - rewrite list_to_set_cons. destruct (decide (x ∈ l)) as [Hin|Hin].
    + rewrite subseteq_union_1_L.
      * simpl. split; lia.
      * apply singleton_subseteq_l. by apply elem_of_list_to_set.
    + rewrite size_union.
      * rewrite size_singleton. simpl.
        split; [lia|]. intros Heq. constructor; [done|]. apply IHeq. lia.
      * apply disjoint_singleton_l. by rewrite elem_of_list_to_set.
Qed.

Lemma dict_factory_take description row :
  dict_factory description (take (length description) row)
  = dict_factory description row.
Proof.
  rewrite !dict_factory_eq, length_take.
  assert (zip description.*1 (take (length description) row)
          = zip description.*1 row) as ->.
  { rewrite <- (length_fmap fst description). apply zip_with_take_r. }
  repeat case_decide; try lia; done.
Qed.

Lemma dict_factory_dom description row d :
  dict_factory description row = Some d → dom d = list_to_set description.*1.
Proof.
  rewrite dict_factory_eq. case_decide as Hlen; [|done]. intros [= <-].
  rewrite store_dom, dom_empty_L, union_empty_r_L, fst_zip; [done|].
  by rewrite length_fmap.
Qed.

(** X1: the row factory raises [IndexError] exactly when the row has fewer
    values than the description has columns; otherwise it returns a
    dictionary. *)
Theorem X1_dict_factory_index_error description row :
  (dict_factory description row = None ↔ (length row < length description)%nat)
  ∧ (is_Some (dict_factory description row)
     ↔ (length description ≤ length row)%nat).
Proof.
  rewrite dict_factory_eq. case_decide; split; split;
    try done; try lia; intros H; try (by inversion H); by eexists.
Qed.

(** X2: the keys of the returned dictionary are the column names, and a
    column whose name is not used by a later column is found under its name
    with the value at its position in the row: of two columns with the same
    name the later one wins. *)
Theorem X2_dict_factory_lookup description row d :
  dict_factory description row = Some d →
  dom d = list_to_set description.*1
  ∧ (∀ i col, description !! i = Some col →
       (∀ j col', (i < j)%nat → description !! j = Some col' → col'.1 ≠ col.1) →
       is_Some (row !! i) ∧ d !! col.1 = row !! i).
Proof.
  intros Hd. split; [by eapply dict_factory_dom|]. revert Hd.
  rewrite dict_factory_eq. case_decide as Hlen; [|done]. intros [= <-].
  - intros i col Hi Hlast.
    destruct (row !! i) as [v|] eqn:Hv.
    + split; [by eexists|].
      apply (store_lookup_last _ _ i).
      * apply lookup_zip_Some. split; [|done].
        by rewrite list_lookup_fmap, Hi.
      * intros j [c w] Hlt Hj. apply lookup_zip_Some in Hj as [Hj _].
        rewrite list_lookup_fmap in Hj.
        destruct (description !! j) as [col'|] eqn:Hj'; [|done].
        injection Hj as <-. by apply (Hlast j).
    + apply lookup_ge_None in Hv. apply lookup_lt_Some in Hi. lia.
Qed.

(** X3: the dictionary has at most as many keys as there are columns, and
    exactly as many when, and only when, the column names are distinct. *)
Theorem X3_dict_factory_size description row d :
  dict_factory description row = Some d →
  (size d ≤ length description)%nat
  ∧ (size d = length description ↔ NoDup description.*1).
Proof.
  intros Hd.
  pose proof (dict_factory_dom description row d Hd) as Hdom.
  rewrite <- size_dom, Hdom, <- (length_fmap fst description).
  destruct (size_list_to_set_le description.*1) as [Hle Heq].
  split; [done|]. split; [done|]. apply size_list_to_set.
Qed.

(** X4: the dictionary depends only on as many leading values of the row
    as there are columns; what follows them is ignored. *)
Theorem X4_dict_factory_prefix description row row' :
  take (length description) row = take (length description) row' →
  dict_factory description row = dict_factory description row'.
Proof.
  intros Heq.
  by rewrite <- (dict_factory_take _ row), <- (dict_factory_take _ row'), Heq.
Qed.

End DictFactoryFacts.

Lemma X2_dict_factory_lookup_witness :
  dom ({[ "id" := 3%Z; "name" := 2%Z ]} : gmap string Z)
    = list_to_set [("id", ()); ("name", ()); ("id", ())].*1
  ∧ (∀ i col, [("id", ()); ("name", ()); ("id", ())] !! i = Some col →
       (∀ j col', (i < j)%nat →
          [("id", ()); ("name", ()); ("id", ())] !! j = Some col' → col'.1 ≠ col.1) →
       is_Some ([1%Z; 2%Z; 3%Z] !! i)
       ∧ ({[ "id" := 3%Z; "name" := 2%Z ]} : gmap string Z) !! col.1 = [1%Z; 2%Z; 3%Z] !! i).
Proof.
  apply (X2_dict_factory_lookup [("id", ()); ("name", ()); ("id", ())] [1%Z; 2%Z; 3%Z]).
  apply (bool_decide_unpack _). vm_compute. exact I.
Defined.

Lemma X3_dict_factory_size_witness :
  (size ({[ "id" := 3%Z; "name" := 2%Z ]} : gmap string Z)
     ≤ length [("id", ()); ("name", ()); ("id", ())])%nat
  ∧ (size ({[ "id" := 3%Z; "name" := 2%Z ]} : gmap string Z)
       = length [("id", ()); ("name", ()); ("id", ())]
     ↔ NoDup [("id", ()); ("name", ()); ("id", ())].*1).
Proof.
  apply (X3_dict_factory_size [("id", ()); ("name", ()); ("id", ())] [1%Z; 2%Z; 3%Z]).
  apply (bool_decide_unpack _). vm_compute. exact I.
Defined.

Lemma X4_dict_factory_prefix_witness :
  dict_factory [("id", ()); ("name", ())] [1%Z; 2%Z]
  = dict_factory [("id", ()); ("name", ())] [1%Z; 2%Z; 5%Z; 7%Z].
Proof.
  apply (X4_dict_factory_prefix [("id", ()); ("name", ())] [1%Z; 2%Z] [1%Z; 2%Z; 5%Z; 7%Z]).
  reflexivity.
Defined.

(** ** create_graphviz *)

Section GraphvizFacts.

Import Line.

Lemma filter_all {A} (P : A → Prop) `{!∀ x, Decision (P x)} (l : list A) :
  (∀ x, P x) → filter P l = l.
Proof.
  intros HP. induction l as [|x l IH]; [done|].
  by rewrite filter_cons_True, IH.
Qed.

Lemma filter_none {A} (P : A → Prop) `{!∀ x, Decision (P x)} (l : list A) :
  (∀ x, ¬ P x) → filter P l = [].
Proof.
  intros HP. induction l as [|x l IH]; [done|].
  by rewrite filter_cons_False.
Qed.

(** Both passes together, as one filter. *)
Lemma prune_as_filter packages dependencies (remove_no_edge remove_only_selfimport : bool) :
  prune packages dependencies remove_no_edge remove_only_selfimport
  = filter (λ pkg,
      (remove_no_edge || remove_only_selfimport = true
         → has_edge dependencies (id pkg))
      ∧ (remove_only_selfimport = true → imports_other dependencies (id pkg)))
      packages.
Proof.
  destruct remove_only_selfimport.
  - rewrite prune_selfimport. apply list_filter_iff. intros pkg.
    split; [|tauto]. intros H. split; [|done]. intros _.
    by apply imports_other_has_edge.
  - destruct remove_no_edge.
    + rewrite prune_no_edge. apply list_filter_iff. intros pkg.
      split; [|tauto]. intros H. split; done.
    + symmetry. apply filter_all. intros pkg. split; done.
Qed.

Lemma prune_sublist packages dependencies remove_no_edge remove_only_selfimport :
  prune packages dependencies remove_no_edge remove_only_selfimport
    `sublist_of` packages.
Proof. rewrite prune_as_filter. apply sublist_filter. Qed.

Lemma slice_to_sublist {A} (l : list A) (n : option Z) :
  Py.slice_to l n `sublist_of` l.
Proof.
  unfold Py.slice_to. destruct n as [k|]; [|done].
  case_decide; apply sublist_take.
Qed.

Lemma emitted_packages_sublist packages dependencies n remove_no_edge remove_only_selfimport :
  emitted_packages packages dependencies n remove_no_edge remove_only_selfimport
    `sublist_of` packages.
Proof.
  unfold emitted_packages.
  etrans; [apply slice_to_sublist|]. etrans; [apply slice_to_sublist|].
  apply prune_sublist.
Qed.

(** X5: the packages written as nodes form a subsequence of the package
    list given to the function, and the node lines are theirs in that order:
    pruning and slicing never reorder, repeat or invent a package. *)
Theorem X5_nodes_in_input_order packages dependencies n
    remove_no_edge remove_only_selfimport :
  emitted_packages packages dependencies n remove_no_edge remove_only_selfimport
    `sublist_of` packages
  ∧ node_lines (writes packages dependencies n remove_no_edge remove_only_selfimport)
    = node_line <$>
        emitted_packages packages dependencies n remove_no_edge remove_only_selfimport.
Proof. split; [apply emitted_packages_sublist|apply node_lines_writes]. Qed.

(** X6: a negative [n] is applied twice, at line 116 and again at line 125:
    of [len] pruned packages the first [len + 2 * n] are written as nodes
    (none when that is negative), so [n = -m] drops the last [2 * m]. *)
Theorem X6_negative_stop_twice packages dependencies (k : Z)
    remove_no_edge remove_only_selfimport :
  k < 0 →
  emitted_packages packages dependencies (Some k) remove_no_edge remove_only_selfimport
  = take (Z.to_nat
            (Z.of_nat (length (prune packages dependencies
                                 remove_no_edge remove_only_selfimport)) + 2 * k))
      (prune packages dependencies remove_no_edge remove_only_selfimport)
  ∧ length (node_lines (writes packages dependencies (Some k)
                          remove_no_edge remove_only_selfimport))
    = Z.to_nat
        (Z.of_nat (length (prune packages dependencies
                             remove_no_edge remove_only_selfimport)) + 2 * k).
Proof.
  intros Hk.
  assert (emitted_packages packages dependencies (Some k)
            remove_no_edge remove_only_selfimport
    = take (Z.to_nat
              (Z.of_nat (length (prune packages dependencies
                                   remove_no_edge remove_only_selfimport)) + 2 * k))
        (prune packages dependencies remove_no_edge remove_only_selfimport)) as HE.
  { unfold emitted_packages, Py.slice_to. case_decide; [|lia].
    rewrite length_take, take_take. f_equal. lia. }
  split; [exact HE|].
  rewrite node_lines_writes, length_fmap, HE, length_take. lia.
Qed.

Lemma X6_negative_stop_twice_witness :
  emitted_packages ex_packages ex_dependencies (Some (-1)) false false
  = take (Z.to_nat
            (Z.of_nat (length (prune ex_packages ex_dependencies false false))
             + 2 * -1))
      (prune ex_packages ex_dependencies false false)
  ∧ length (node_lines (writes ex_packages ex_dependencies (Some (-1)) false false))
    = Z.to_nat
        (Z.of_nat (length (prune ex_packages ex_dependencies false false)) + 2 * -1).
Proof.
  apply (X6_negative_stop_twice ex_packages ex_dependencies (-1) false false). lia.
Defined.

Lemma has_dependency_lookup dependencies (m : gmap Z (list Z)) (i : Z) :
  fold_left record_dependency dependencies m !! i
  = match needs_package <$>
            filter (λ dep, package dep = i ∧ package dep ≠ needs_package dep)
              dependencies with
    | [] => m !! i
    | l => Some (default [] (m !! i) ++ l)
    end.
Proof.
  revert m. induction dependencies as [|dep l IH]; intros m; [done|].
  cbn [fold_left]. rewrite IH, filter_cons. unfold record_dependency.
  destruct (decide (package dep = needs_package dep)) as [Hself|Hself].
  - rewrite decide_False by tauto. done.
  - destruct (decide (package dep = i)) as [Hi|Hi].
    + rewrite decide_True by done. rewrite fmap_cons. subst i.
      destruct (m !! package dep) as [old|] eqn:Hm;
        rewrite lookup_insert_eq; simpl;
        destruct (needs_package <$> filter _ l); simpl;
        by rewrite <- ?app_assoc.
    + rewrite decide_False by tauto.
      destruct (m !! package dep) as [old|] eqn:Hm;
        by rewrite lookup_insert_ne.
Qed.

(** X7: after the loop of lines 102-108, [has_dependency] maps an id to the
    list of the packages it needs other than itself, in the order of the
    dependency list and with repetitions, and holds no key for an id without
    any; so no value is an empty list and the length test of line 112 never
    decides. *)
Theorem X7_has_dependency_content dependencies (i : Z) :
  fold_left record_dependency dependencies ∅ !! i
  = match needs_package <$>
            filter (λ dep, package dep = i ∧ package dep ≠ needs_package dep)
              dependencies with
    | [] => None
    | l => Some l
    end
  ∧ (∀ pkg, has_entry (fold_left record_dependency dependencies ∅) pkg
            = bool_decide (is_Some (fold_left record_dependency dependencies ∅
                                      !! id pkg))).
Proof.
  split.
  - rewrite has_dependency_lookup, lookup_empty. by destruct (_ <$> _).
  - intros pkg. unfold has_entry.
    rewrite has_dependency_lookup, lookup_empty.
    destruct (_ <$> _) as [|x l]; [done|]. simpl. reflexivity.
Qed.



Lemma writes_no_packages packages dependencies n remove_no_edge remove_only_selfimport :
  emitted_packages packages dependencies n remove_no_edge remove_only_selfimport = [] →
  writes packages dependencies n remove_no_edge remove_only_selfimport
  = [header; footer].
Proof.
  intros HE. rewrite writes_eq. unfold emitted_ids. rewrite HE. simpl.
  rewrite filter_none; [done|].
  intros dep [Hin _]. by apply elem_of_empty in Hin.
Qed.

(** X9: without packages, with [n = 0], or with a pruning flag set and no
    dependency at all, the file holds the header and the closing brace
    only. *)
Theorem X9_empty_graph packages dependencies n remove_no_edge remove_only_selfimport :
  packages = [] ∨ n = Some 0
  ∨ (dependencies = [] ∧ remove_no_edge || remove_only_selfimport = true) →
  writes packages dependencies n remove_no_edge remove_only_selfimport
  = [header; footer].
Proof.
  intros Hcase. apply writes_no_packages.
  destruct Hcase as [->|[->|[-> Hflag]]].
  - apply sublist_nil_r, emitted_packages_sublist.
  - unfold emitted_packages, Py.slice_to. case_decide; [lia|]. done.
  - apply sublist_nil_r. unfold emitted_packages.
    etrans; [apply slice_to_sublist|]. etrans; [apply slice_to_sublist|].
    rewrite prune_as_filter, filter_none; [done|].
    intros pkg [Hedge _]. specialize (Hedge Hflag).
    unfold has_edge in Hedge. by apply Exists_nil in Hedge.
Qed.

Lemma X9_empty_graph_witness :
  writes ex_packages [] None false true = [header; footer].
Proof.
  apply (X9_empty_graph ex_packages [] None false true).
  right. right. split; reflexivity.
Defined.

(** X10: with [remove_no_edge] alone and no cap, when every dependency
    joins ids of given packages, each node line of the file has an edge line
    of the file that starts or ends at its id. *)
Theorem X10_nodes_have_edge_lines packages dependencies (i : Z) (label : string) :
  (∀ dep, dep ∈ dependencies →
     package dep ∈ id <$> packages ∧ needs_package dep ∈ id <$> packages) →
  node_stmt i label ∈ writes packages dependencies None true false →
  ∃ a b, (a = i ∨ b = i) ∧ edge_stmt a b ∈ writes packages dependencies None true false.
Proof.
  intros Hclosed Hnode. apply node_in_writes in Hnode.
  assert (emitted_packages packages dependencies None true false
          = filter (λ pkg, has_edge dependencies (id pkg)) packages) as HE.
  { unfold emitted_packages. simpl. apply prune_no_edge. }
  assert (∀ x dep, dep ∈ dependencies →
            (package dep = x ∨ needs_package dep = x) →
            x ∈ emitted_ids packages dependencies None true false) as Hids.
  { intros x dep Hin Hx.
    assert (x ∈ id <$> packages) as Hxp.
    { destruct (Hclosed dep Hin) as [? ?]. destruct Hx as [<-|<-]; done. }
    apply list_elem_of_fmap in Hxp as (q & -> & Hq).
    apply emitted_ids_spec. exists q. split; [|done].
    rewrite HE. apply list_elem_of_filter. split; [|done].
    apply has_edge_exists. by exists dep. }
  rewrite HE in Hnode. apply list_elem_of_filter in Hnode as [Hedge _].
  simpl in Hedge. apply has_edge_exists in Hedge as (dep & Hin & Hi).
  exists (needs_package dep), (package dep). split; [tauto|].
  apply edge_in_writes. exists dep. repeat split; try done.
  - apply (Hids _ dep); [done|by right].
  - apply (Hids _ dep); [done|by left].
Qed.

Lemma X10_nodes_have_edge_lines_witness :
  ∃ a b, (a = 1 ∨ b = 1)
         ∧ edge_stmt a b ∈ writes ex_packages ex_dependencies None true false.
Proof.
  apply (X10_nodes_have_edge_lines ex_packages ex_dependencies 1 "a").
  - apply Forall_forall. apply (bool_decide_unpack _). vm_compute. exact I.
  - apply (bool_decide_unpack _). vm_compute. exact I.
Defined.

(** X11: pruning the result of a pruning, against the same dependency
    list, gives what one pruning with the flags of both would give; in
    particular pruning twice with the same flags changes nothing. *)
Theorem X11_prune_composes packages dependencies (r1 s1 r2 s2 : bool) :
  prune (prune packages dependencies r1 s1) dependencies r2 s2
  = prune packages dependencies (r1 || r2) (s1 || s2).
Proof.
  rewrite !prune_as_filter, list_filter_filter.
  apply list_filter_iff. intros pkg.
  destruct r1, s1, r2, s2; simpl; tauto.
Qed.

(** X12: the file is made of two writes more than its node and edge
    lines; there are at most as many node lines as packages and at most as
    many edge lines as dependencies. *)
Theorem X12_write_counts packages dependencies n remove_no_edge remove_only_selfimport :
  length (writes packages dependencies n remove_no_edge remove_only_selfimport)
  = (2 + length (node_lines (writes packages dependencies n
                               remove_no_edge remove_only_selfimport))
       + length (edge_lines (writes packages dependencies n
                               remove_no_edge remove_only_selfimport)))%nat
  ∧ (length (node_lines (writes packages dependencies n
                           remove_no_edge remove_only_selfimport))
     ≤ length packages)%nat
  ∧ (length (edge_lines (writes packages dependencies n
                           remove_no_edge remove_only_selfimport))
     ≤ length dependencies)%nat.
Proof.
  rewrite node_lines_writes, edge_lines_writes, writes_eq.
  rewrite !length_app, !length_fmap. simpl. split; [lia|]. split.
  - apply sublist_length, emitted_packages_sublist.
  - apply length_filter.
Qed.

(** X13: the text of a line tells what was written: a node line determines
    its id and its label, whatever characters the label holds, an edge line
    determines its two ids, and no node line is an edge line, the header or
    the closing brace, nor is any edge line. *)
Theorem X13_lines_read_back (i i' a b a' b' : Z) (label label' : string) :
  (node_stmt i label = node_stmt i' label' ↔ i = i' ∧ label = label')
  ∧ (edge_stmt a b = edge_stmt a' b' ↔ a = a' ∧ b = b')
  ∧ node_stmt i label ≠ edge_stmt a b
  ∧ (node_stmt i label ≠ header ∧ node_stmt i label ≠ footer)
  ∧ (edge_stmt a b ≠ header ∧ edge_stmt a b ≠ footer).
Proof.
  split; [|split; [|split; [|split]]].
  - split; [apply node_stmt_inj|]. by intros [-> ->].
  - split; [apply edge_stmt_inj|]. by intros [-> ->].
  - intros Heq. apply (f_equal is_node_line) in Heq.
    by rewrite is_node_line_node, is_node_line_edge in Heq.
  - split; intros Heq; apply (f_equal is_node_line) in Heq;
      by rewrite is_node_line_node in Heq.
  - split; intros Heq; apply (f_equal is_edge_line) in Heq;
      by rewrite is_edge_line_edge in Heq.
Qed.

(** X14: without flags and without cap, every package is written as a
    node, in the order given and whether or not it has dependencies, and the
    edges are the dependencies whose two ids are ids of packages, in the
    order given. *)
Theorem X14_default_run packages dependencies :
  writes packages dependencies None false false
  = [header]
    ++ (node_line <$> packages)
    ++ (edge_line <$>
          filter (λ dep, needs_package dep ∈ id <$> packages
                         ∧ package dep ∈ id <$> packages) dependencies)
    ++ [footer].
Proof.
  rewrite writes_eq. unfold emitted_ids, emitted_packages. simpl.
  rewrite (list_filter_iff (survives (list_to_set (id <$> packages)))
             (λ dep, needs_package dep ∈ id <$> packages
                     ∧ package dep ∈ id <$> packages)); [done|].
  intros dep. unfold survives. by rewrite !elem_of_list_to_set.
Qed.

End GraphvizFacts.
